(* ===== verification/_CoqProject ===== *)
-Q . S2P
Prelude.v
JsValue.v
JovoCore.v
GoogleAnalytics.v
GoogleAnalyticsAlexa.v
VisitorRecord.v
Design.v
Pipeline.v
Lifecycle.v
EndToEnd.v
Examples.v
