(* ===== verification/Prelude.v ===== *)
(** * A verification development of [GoogleAnalyticsAlexa]

    The program verified here is the file
    [src/jovo-integrations/jovo-analytics-googleanalytics/src/GoogleAnalyticsAlexa.ts]
    of the Jovo framework.  It declares one class,
    [GoogleAnalyticsAlexa], that extends the generic Google Analytics tracker
    [GoogleAnalytics] and overrides six of its methods so that only Alexa
    requests are tracked and their visitor records carry Alexa-only fields:

    - [install(app)] registers the bound method [setErrorEndReason] on the
      ["after.handler"] middleware of the app (if that middleware exists),
      then calls the base tracker's [install];
    - [track] and [setGoogleAnalyticsObject] throw a [JovoError] when the
      request has no [jovo] object, return silently when the [jovo] object
      is not an instance of a class named ["AlexaSkill"], and delegate to the
      base tracker otherwise;
    - [initVisitor] delegates to the base initializer, then sets
      [screenResolution], a fake [userAgentOverride] built from the device
      name, and, when the request carries a truthy
      [request.metadata.referrer], three campaign fields;
    - [setErrorEndReason] records the Alexa end reason on the session when
      the configuration flag [trackEndReasons] is on and the reason is truthy;
    - [sendUnhandledEvents] delegates to the base tracker, then sends the
      event [FlowError]/[Exceeded_Max_Reprompts] when the end reason is
      exactly ["EXCEEDED_MAX_REPROMPTS"].

    ** Layout of the library

    - [Prelude] (this file): an exception-and-state monad [EM] that models
      JavaScript's control flow (a [throw] keeps every mutation done before
      it), its laws, the notation scope [jovo_scope], the hint databases
      [jovo] (resolve) and [em] (rewrite) and the tactic [em_simp].
    - [JsValue]: JavaScript values ([jsval]), truthiness, the string
      conversion of template literals, strict equality with a string, and
      [lodash.get] on a dotted path.  These are the semantics of the
      language and of the library the source calls, not code of the
      repository.
    - [JovoCore]: the parts of [jovo-core] and [jovo-platform-alexa] the
      adapter reads: [JovoError] and [ErrorCode], the [Jovo] object (its
      constructor name, its prototype chain, its [$request] and
      [$alexaSkill]), [HandleRequest], and the app's middleware registry
      with [Middleware.use] and a sequential [Middleware.run].  These live
      outside [src/] and are modelled from the spec.
    - [GoogleAnalytics]: the base tracker.  Its state [GAState] is the
      tracker instance (configuration and visitor record) together with the
      session data of the current request and the log of hits sent to
      Google Analytics.  The base class is outside [src/]: the operations the
      adapter only delegates to are the typeclass [GoogleAnalyticsBase], and
      what the adapter relies on about them is the Prop class
      [GoogleAnalyticsBaseLaws].  The setters the spec describes exactly
      ([setEndReason], [sendUserEvent], [Visitor.set]) are definitions.  A
      concrete instance [SampleBase] built from the spec satisfies the
      laws, and the witnesses run the adapter on it.
    - [GoogleAnalyticsAlexa]: the adapter, one definition per method of the
      TypeScript class, in a Section whose [Context] is the base tracker.
      The theorems are about every base tracker that satisfies the laws.
    - [VisitorRecord]: the visitor record as a whole: the five
      [visitor.set] calls as one left-biased union with a table of the Alexa
      fields (a reference definition), the size bounds of the record, and
      when its values are strings.
    - [Design]: the spec's contract of the adapter as abstract relational
      specifications (the guard of [track] and [setGoogleAnalyticsObject]
      with the spec's [instanceof] test; the unhandled-events contract),
      and refinement theorems from the definitions to them.
    - [Pipeline]: [install] on the middleware registry, the dispatch of
      registered hooks to the overriding methods (JavaScript's dynamic
      dispatch of [this.track.bind(this)]), the sequential middleware run, and
      the ordering theorem: the end reason is on the session before any hook
      that the base tracker registers on ["after.handler"] runs.
    - [Lifecycle]: the handling of one request by the app ([jovo-core],
      modelled from the spec): the extension points run in order, each
      middleware chain to completion, and an exception ends the request
      ([handle]); the names and order of the points are a parameter.
    - [EndToEnd]: the composition of [install], the hook dispatch,
      [setErrorEndReason], [track] and [initVisitor] with a base tracker
      that installs and sends as the spec describes (a Section hypothesis),
      for one request ([request_cycle]).
    - [Examples]: fixtures, the two worked examples of the spec run on
      [SampleBase], and one concrete instance of every theorem that has
      hypotheses.

    The monad's state is [GAState] for the tracker's methods and the app
    ([BaseApp GAHook]) for [install].  Each TypeScript method is one
    definition with its own name; [initVisitor] is split into the [super]
    call and [enrichVisitor] (its lines 32 to 47), and every
    [this.visitor!.set(...)] call is [visitor_set], which checks the receiver
    before it evaluates the argument, as JavaScript does.

    ** What the theorems show

    - guards of [track] and [setGoogleAnalyticsObject]: a missing [jovo]
      object raises the plugin error and leaves the state untouched; a
      non-Alexa object is a silent no-op; an Alexa object delegates;
    - [initVisitor]: the two fields that are always set (with the literal
      user agent for a missing or empty device name), the three campaign
      fields set exactly when the referrer is truthy, every other key left
      as the base initializer made it, and its two [TypeError] paths;
    - [setErrorEndReason]: never throws, and records the reason exactly when
      the flag is on and the reason is truthy;
    - [sendUnhandledEvents]: the extra event is sent exactly for
      ["EXCEEDED_MAX_REPROMPTS"], and the method throws a [TypeError] after
      the base tracker has sent its events when [$alexaSkill] is absent;
    - [install]: the adapter's hook is appended to ["after.handler"] before
      whatever the base [install] adds there, the base result is returned,
      nothing is registered when the middleware does not exist, and the
      hooks the base appends run after the end reason is recorded;
    - the visitor record: [enrichVisitor] equals a union with the table of
      Alexa fields (an equivalence with a reference definition); it adds at
      most five keys (two without a referrer) and removes none; it stays
      string-valued when its inputs are strings;
    - refinement: [track] and [setGoogleAnalyticsObject] implement the spec's
      guarded contract when no subclass of [AlexaSkill] is in use;
    - end to end: after [install], the payload sent for an Alexa request
      carries the end reason the adapter recorded; a request without a
      [jovo] object ends with the plugin error before anything is sent and
      stops the request; with a base that creates a fresh visitor, a
      payload carries exactly its request's fields, whatever earlier
      requests left.

    ** Plan

    Done: the five overridden methods, [install], hook dispatch, the
    sequential middleware chain, the visitor record, the refinement to the
    spec's guarded contract and the end-to-end behaviour of one request (C1
    to C22 of the manifest).  Every line of the source file that does
    something is translated (the lines the map leaves out are the imports,
    blank lines and closing braces); what remains partly modelled lives
    outside [src/] (see below).

    ** Not modelled

    The base class [GoogleAnalytics] is not in the repository's [src/]
    slice and the spec leaves it out of scope: its methods are an interface
    with laws, and the end-to-end theorems assume of it only what the spec
    says (its [install] appends the send hook to ["after.handler"], its
    [track] sends the visitor with the session's end reason, and, where
    stated, its [initVisitor] creates a fresh visitor).  Network I/O of the
    base tracker, the [universal-analytics] client beyond
    its [set] method, and a scheduler for the asynchronous middleware chain
    are not modelled: one request's chain runs sequentially, as the spec
    says.  [jovo.$request] is always present, and [getDeviceName()] is a
    value rather than a call, so the [TypeError] of line 33 for an
    undefined [$request] is not modelled; [config.trackEndReasons] is a
    boolean rather than any truthy value.  JavaScript numbers are
    integers here (no [NaN] or fractions).  Property reads on primitive
    strings return [undefined] (a string's [length] is not modelled).  There
    are no loops or recursion in the source, so no fuel is needed: every
    definition is structurally recursive or not recursive; [handle]
    recurses on the list of extension points. *)

From stdpp Require Export base strings gmap list.

Declare Scope jovo_scope.
Delimit Scope jovo_scope with jovo.

(** ** Results of a JavaScript call *)

(** A call returns normally with a value or throws an exception. *)
Inductive result (E A : Type) : Type :=
| Ok (a : A)
| Throw (e : E).
Arguments Ok {E A} a.
Arguments Throw {E A} e.

(** ** The exception-and-state monad

    [EM S E A] runs from a state [S] and returns a result together with the
    final state.  The state is returned on both exits: in JavaScript a
    [throw] does not undo the mutations that happened before it. *)
Definition EM (S E A : Type) : Type := S → result E A * S.

Section Monad.
Context {S E : Type}.

Definition em_ret {A} (a : A) : EM S E A := λ s, (Ok a, s).

Definition em_throw {A} (e : E) : EM S E A := λ s, (Throw e, s).

Definition em_bind {A B} (m : EM S E A) (k : A → EM S E B) : EM S E B :=
  λ s, match m s with
       | (Ok a, s') => k a s'
       | (Throw e, s') => (Throw e, s')
       end.

Definition em_get : EM S E S := λ s, (Ok s, s).

Definition em_modify (f : S → S) : EM S E unit := λ s, (Ok tt, f s).
End Monad.

Notation "x ← y ; z" := (em_bind y (λ x : _, z)) : jovo_scope.
Notation "y ;; z" := (em_bind y (λ _, z)) : jovo_scope.
(** [m ⇓{s} (r, s')]: run from [s], the computation [m] ends with the result
    [r] in the state [s']. *)
Notation "m ⇓{ s } p" := (m s = p)
  (at level 70, s at level 200, p at level 69, only parsing) : jovo_scope.

Open Scope jovo_scope.

(** ** Laws of the monad *)

Create Rewrite HintDb em.
Create HintDb jovo discriminated.

Section MonadLaws.
Context {S E : Type}.

Lemma em_bind_ret_l {A B} (a : A) (k : A → EM S E B) s :
  (x ← em_ret a ; k x) s = k a s.
Proof. reflexivity. Qed.

Lemma em_bind_ret_r {A} (m : EM S E A) s : (x ← m ; em_ret x) s = m s.
Proof. unfold em_bind, em_ret. by destruct (m s) as [[] ?]. Qed.

Lemma em_bind_assoc {A B C} (m : EM S E A) (k : A → EM S E B)
      (h : B → EM S E C) s :
  (y ← (x ← m ; k x) ; h y) s = (x ← m ; y ← k x ; h y) s.
Proof. unfold em_bind. by destruct (m s) as [[] ?]. Qed.

Lemma em_bind_throw_l {A B} (e : E) (k : A → EM S E B) s :
  (x ← em_throw e ; k x) s = (Throw e, s).
Proof. reflexivity. Qed.

(** Running a bind once the first computation has run. *)
Lemma em_bind_ok {A B} (m : EM S E A) (k : A → EM S E B) s a s' :
  m s = (Ok a, s') → (x ← m ; k x) s = k a s'.
Proof. unfold em_bind. by intros ->. Qed.

(** Two computations that agree on every state agree after a bind. *)
Lemma em_bind_ext {A B} (m m' : EM S E A) (k k' : A → EM S E B) s :
  (∀ s, m s = m' s) → (∀ a s, k a s = k' a s) →
  (x ← m ; k x) s = (x ← m' ; k' x) s.
Proof. intros Hm Hk. unfold em_bind. rewrite Hm. by destruct (m' s) as [[] ?]. Qed.

(** A step-indexed view of a preorder on states: [em_preserves R m] says
    that the final state of [m] is [R]-above the initial one on both
    exits.  Invariants of the development are stated with it. *)
Definition em_preserves {A} (R : S → S → Prop) (m : EM S E A) : Prop :=
  ∀ s, R s (m s).2.

Lemma em_preserves_ret {A} (R : S → S → Prop) `{!Reflexive R} (a : A) :
  em_preserves R (em_ret a).
Proof. intros s. simpl. reflexivity. Qed.

Lemma em_preserves_throw {A} (R : S → S → Prop) `{!Reflexive R} (e : E) :
  em_preserves (A:=A) R (em_throw e).
Proof. intros s. simpl. reflexivity. Qed.

Lemma em_preserves_bind {A B} (R : S → S → Prop) `{!Transitive R}
      (m : EM S E A) (k : A → EM S E B) :
  em_preserves R m → (∀ a, em_preserves R (k a)) →
  em_preserves R (x ← m ; k x).
Proof.
  intros Hm Hk s. unfold em_bind.
  specialize (Hm s). destruct (m s) as [[a|e] s'] eqn:Hms; simpl in *; [|done].
  etrans; [exact Hm|apply Hk].
Qed.
End MonadLaws.

#[export] Hint Rewrite @em_bind_ret_l @em_bind_ret_r @em_bind_assoc
  @em_bind_throw_l : em.
#[export] Hint Resolve em_preserves_ret em_preserves_throw em_preserves_bind : jovo.

(** [em_simp] unfolds the monad's combinators and simplifies the matches
    they leave. *)
Ltac em_simp :=
  unfold em_bind, em_ret, em_throw, em_get, em_modify in *; simpl in *.
