(* ===== verification/JsValue.v ===== *)
(** JavaScript values and the few operations of the language and of
    [lodash.get] that [GoogleAnalyticsAlexa.ts] relies on: truthiness
    ([if (referrer)], [&& endReason]), the conversion of a template literal
    placeholder ([`${deviceInfo} ...`]), strict equality with a string
    literal ([=== 'EXCEEDED_MAX_REPROMPTS']) and [_get(obj, 'a.b.c')].
    Numbers are integers: [NaN] and fractions do not occur in the model. *)

From stdpp Require Import pretty.
From S2P Require Import Prelude.

(** ** Values *)

Inductive jsval : Type :=
| JUndefined
| JNull
| JBool (b : bool)
| JNum (n : Z)
| JStr (s : string)
| JObj (fields : list (string * jsval)).

(** ** Truthiness: [undefined], [null], [false], [0] and [""] are falsy. *)
Definition js_truthy (v : jsval) : bool :=
  match v with
  | JUndefined | JNull => false
  | JBool b => b
  | JNum n => negb (Z.eqb n 0)
  | JStr s => negb (String.eqb s "")
  | JObj _ => true
  end.

(** ** [String(v)], the conversion of a template-literal placeholder *)
Definition js_to_string (v : jsval) : string :=
  match v with
  | JUndefined => "undefined"
  | JNull => "null"
  | JBool true => "true"
  | JBool false => "false"
  | JNum n => pretty n
  | JStr s => s
  | JObj _ => "[object Object]"
  end.

(** ** [typeof v === "string"] *)
Definition js_is_string (v : jsval) : bool :=
  match v with JStr _ => true | _ => false end.

(** ** [v === s] for a string literal [s] *)
Definition js_strict_eq_str (v : jsval) (s : string) : bool :=
  match v with
  | JStr s' => String.eqb s' s
  | _ => false
  end.

(** ** Property access [v[k]] *)
Fixpoint js_assoc (k : string) (fs : list (string * jsval)) : jsval :=
  match fs with
  | [] => JUndefined
  | (k', v) :: fs' => if String.eqb k k' then v else js_assoc k fs'
  end.

Definition js_get_prop (v : jsval) (k : string) : jsval :=
  match v with
  | JObj fs => js_assoc k fs
  | _ => JUndefined
  end.

(** ** [_get(object, path)] of lodash with no default value: walk the
    path while the current value is neither [null] nor [undefined]; stop
    with [undefined] at the first nullish value before the end. *)
Fixpoint lodash_get (v : jsval) (path : list string) : jsval :=
  match path with
  | [] => v
  | k :: path' =>
      match v with
      | JUndefined | JNull => JUndefined
      | _ => lodash_get (js_get_prop v k) path'
      end
  end.

Lemma js_strict_eq_str_spec (v : jsval) (s : string) :
  js_strict_eq_str v s = true ↔ v = JStr s.
Proof.
  destruct v; simpl; split; try done.
  - by intros ->%String.eqb_eq.
  - intros [= ->]. apply String.eqb_refl.
Qed.

