(* ===== verification/JovoCore.v ===== *)
(** The parts of the host framework that [GoogleAnalyticsAlexa] reads or
    calls, from [jovo-core] and [jovo-platform-alexa] (outside [src/],
    modelled from the spec): the error type [JovoError], the [Jovo] object
    with its class (prototype chain), its [$request] and its [$alexaSkill],
    the middleware argument [HandleRequest], and the app's registry of named
    middlewares, with [Middleware.use] (append a function) and a sequential
    [Middleware.run] that stops at the first exception. *)

From S2P Require Import Prelude JsValue.

(** ** Errors *)

Inductive ErrorCode : Type :=
| ERR
| ERR_PLUGIN.

Record JovoError : Type := mkJovoError {
  message : string;
  code : ErrorCode;
  module : string;
}.

(** What a call can throw: a [JovoError] raised by the code, or the
    [TypeError] the JavaScript runtime raises on a call through [undefined]. *)
Inductive Exn : Type :=
| EJovo (e : JovoError)
| ETypeError (msg : string).

(** ** The request and the [Jovo] object *)

(** [AlexaRequest]: [ar_object] is the request object as a plain value
    (what [_get(request, ...)] walks); [getDeviceName] is the value
    [request.getDeviceName()] returns; [getScreenResolution] is [None] when
    the optional method is absent and [Some v] when it returns [v]. *)
Record AlexaRequest : Type := mkAlexaRequest {
  ar_object : jsval;
  getDeviceName : jsval;
  getScreenResolution : option jsval;
}.

(** The [$alexaSkill] view of the [Jovo] object, through the value its
    [getEndReason()] returns ([undefined] when the request did not end). *)
Record AlexaSkill : Type := mkAlexaSkill {
  getEndReason : jsval;
}.

(** The [Jovo] object: [proto_chain] lists the names of the classes on its
    prototype chain, its own class first; [$request] and [$alexaSkill]. *)
Record Jovo : Type := mkJovo {
  proto_chain : list string;
  jovo_request : AlexaRequest;
  alexaSkill : option AlexaSkill;
}.

(** [jovo.constructor.name]: the name of the object's own class. *)
Definition constructor_name (j : Jovo) : string :=
  match proto_chain j with
  | [] => "Object"
  | c :: _ => c
  end.

(** [jovo instanceof C]. *)
Definition instance_of (j : Jovo) (c : string) : bool :=
  bool_decide (c ∈ proto_chain j).

(** The argument of every middleware function; [jovo] may be unset. *)
Record HandleRequest : Type := mkHandleRequest {
  hr_jovo : option Jovo;
}.

(** ** The app and its middlewares

    [BaseApp H] maps the name of each extension point to the functions
    registered on it, in registration order.  The registered functions are
    values of [H]; the client that registers them says how they run. *)
Record BaseApp (H : Type) : Type := mkBaseApp {
  app_middlewares : gmap string (list H);
}.
Arguments mkBaseApp {H} _.
Arguments app_middlewares {H} _.

Section Middleware.
Context {H : Type}.

(** [app.middleware(name)]: the middleware, if the app declares it. *)
Definition middleware (app : BaseApp H) (name : string) : option (list H) :=
  app_middlewares app !! name.

(** [Middleware.use(fn)] on the middleware [name] whose functions are
    [fns]: append [fn]. *)
Definition middleware_use (name : string) (fns : list H) (fn : H)
    (app : BaseApp H) : BaseApp H :=
  mkBaseApp (<[name := fns ++ [fn]]> (app_middlewares app)).

(** [Middleware.run(handleRequest)]: the functions in registration order,
    each to completion; an exception stops the chain. *)
Fixpoint run_middleware {S} (run : H → HandleRequest → EM S Exn unit)
    (fns : list H) (hr : HandleRequest) : EM S Exn unit :=
  match fns with
  | [] => em_ret tt
  | f :: fns' => run f hr ;; run_middleware run fns' hr
  end.

Lemma middleware_use_same name fns fn app :
  middleware (middleware_use name fns fn app) name = Some (fns ++ [fn]).
Proof. apply lookup_insert_eq. Qed.

Lemma middleware_use_other name name' fns fn app :
  name ≠ name' →
  middleware (middleware_use name fns fn app) name' = middleware app name'.
Proof. intros Hne. by apply lookup_insert_ne. Qed.

(** Running a chain that is the concatenation of two chains. *)
Lemma run_middleware_app {S} (run : H → HandleRequest → EM S Exn unit)
    fns1 fns2 hr s :
  run_middleware run (fns1 ++ fns2) hr s =
  (run_middleware run fns1 hr ;; run_middleware run fns2 hr) s.
Proof.
  revert s. induction fns1 as [|f fns1 IH]; intros s; [done|].
  simpl. rewrite em_bind_assoc. apply em_bind_ext; [done|]. intros [] s'. apply IH.
Qed.

(** A preorder kept by every registered function is kept by the chain. *)
Lemma run_middleware_preserves {S} (R : S → S → Prop) `{!PreOrder R}
    (run : H → HandleRequest → EM S Exn unit) fns hr :
  (∀ f, f ∈ fns → em_preserves R (run f hr)) →
  em_preserves R (run_middleware run fns hr).
Proof.
  induction fns as [|f fns IH]; intros Hf; simpl; [apply (em_preserves_ret R tt)|].
  apply em_preserves_bind; [apply _|apply Hf; set_solver|].
  intros []. apply IH. intros g Hg. apply Hf. set_solver.
Qed.
End Middleware.

#[export] Hint Rewrite @middleware_use_same : em.
