(* ===== verification/GoogleAnalytics.v ===== *)
(** The base tracker [GoogleAnalytics] that [GoogleAnalyticsAlexa] extends
    (outside [src/], modelled from the spec).

    - [GAState]: the tracker instance ([this.config], [this.visitor]), the
      session data of the current request ([jovo.$session.$data]) and the
      hits sent to Google Analytics, oldest first.
    - [GAHook]: the bound methods of the tracker that are registered as
      middleware functions ([this.m.bind(this)]).
    - [GoogleAnalyticsBase]: the base methods the adapter calls through
      [super], as an interface; [GoogleAnalyticsBaseLaws]: what the adapter's
      theorems need of them.
    - [setEndReason] and [sendUserEvent], which the spec describes exactly.
    - [SampleBase]: one base tracker built from the spec, with its laws. *)

From S2P Require Import Prelude JsValue JovoCore.

(** ** State *)

Record GAConfig : Type := mkGAConfig {
  trackEndReasons : bool;
}.

(** A hit sent to Google Analytics: a custom event, or the payload of a
    tracked request (the visitor's parameters and the session's end
    reason, if one was recorded). *)
Inductive Hit : Type :=
| HEvent (category action : string)
| HPayload (params : gmap string jsval) (endReason : option jsval).

(** The visitor record of [universal-analytics]: its parameters by name. *)
Abbreviation Visitor := (gmap string jsval).

Record GAState : Type := mkGAState {
  config : GAConfig;
  visitor : option Visitor;
  session_data : gmap string jsval;
  hits : list Hit;
}.

Definition set_visitor (v : option Visitor) (s : GAState) : GAState :=
  mkGAState (config s) v (session_data s) (hits s).

Definition set_session_data (d : gmap string jsval) (s : GAState) : GAState :=
  mkGAState (config s) (visitor s) d (hits s).

Definition add_hit (h : Hit) (s : GAState) : GAState :=
  mkGAState (config s) (visitor s) (session_data s) (hits s ++ [h]).

(** The middleware functions the tracker registers: its bound methods. *)
Inductive GAHook : Type :=
| HSetErrorEndReason
| HTrack
| HSetGoogleAnalyticsObject
| HBase (name : string).

(** ** The base class, as an interface *)

Class GoogleAnalyticsBase : Type := {
  base_install : BaseApp GAHook → result Exn unit * BaseApp GAHook;
  base_track : HandleRequest → EM GAState Exn unit;
  base_initVisitor : Jovo → EM GAState Exn unit;
  base_setGoogleAnalyticsObject : HandleRequest → EM GAState Exn unit;
  base_sendUnhandledEvents : Jovo → EM GAState Exn unit;
  (** the other methods the base [install] registers, by name *)
  base_hook : string → HandleRequest → EM GAState Exn unit;
}.

(** The tracker's history only grows: the configuration is fixed and a
    sent hit stays sent. *)
Definition ga_le (s s' : GAState) : Prop :=
  config s' = config s ∧ hits s `prefix_of` hits s'.

#[export] Instance ga_le_preorder : PreOrder ga_le.
Proof.
  split.
  - intros s. split; [done|reflexivity].
  - intros s1 s2 s3 [Hc1 Hp1] [Hc2 Hp2]. split; [congruence|by etrans].
Qed.

Class GoogleAnalyticsBaseLaws `{GoogleAnalyticsBase} : Prop := {
  (** [initVisitor] creates the visitor when it returns normally *)
  base_initVisitor_visitor j s s' :
    base_initVisitor j s = (Ok tt, s') → is_Some (visitor s');
  (** [install] only appends to the middlewares that exist *)
  base_install_extends app name fns :
    middleware app name = Some fns →
    ∃ fns', middleware (base_install app).2 name = Some (fns ++ fns');
  base_track_le hr : em_preserves ga_le (base_track hr);
  base_initVisitor_le j : em_preserves ga_le (base_initVisitor j);
  base_setGoogleAnalyticsObject_le hr :
    em_preserves ga_le (base_setGoogleAnalyticsObject hr);
  base_sendUnhandledEvents_le j : em_preserves ga_le (base_sendUnhandledEvents j);
  base_hook_le n hr : em_preserves ga_le (base_hook n hr);
}.

(** ** Setters the spec describes *)

(** [setEndReason(jovo, endReason)]: record the reason on the session;
    reading [$session] of an undefined [jovo] raises a [TypeError]. *)
Definition setEndReason (jovo : option Jovo) (endReason : jsval)
    : EM GAState Exn unit :=
  match jovo with
  | None => em_throw (ETypeError "Cannot read properties of undefined (reading '$session')")
  | Some _ => em_modify (λ s, set_session_data (<["endReason" := endReason]> (session_data s)) s)
  end.

(** [sendUserEvent(jovo, category, action)]: send one custom event. *)
Definition sendUserEvent (jovo : Jovo) (category action : string)
    : EM GAState Exn unit :=
  em_modify (add_hit (HEvent category action)).

Lemma add_hit_le h s : ga_le s (add_hit h s).
Proof. split; [done|by eexists]. Qed.

Lemma set_visitor_le v s : ga_le s (set_visitor v s).
Proof. done. Qed.

Lemma set_session_data_le d s : ga_le s (set_session_data d s).
Proof. done. Qed.

Lemma setEndReason_le jovo r : em_preserves ga_le (setEndReason jovo r).
Proof. intros s. destruct jovo; simpl; [apply set_session_data_le|done]. Qed.

#[export] Hint Resolve base_track_le base_initVisitor_le base_setGoogleAnalyticsObject_le
  base_sendUnhandledEvents_le base_hook_le : jovo.
#[export] Hint Resolve add_hit_le set_visitor_le set_session_data_le setEndReason_le : jovo.

(** ** A base tracker built from the spec

    [install] registers the send hook [track] on ["after.handler"];
    [initVisitor] creates an empty visitor; [track] sends the visitor's
    parameters with the session's end reason; the others do nothing the
    adapter can observe. *)
Definition sample_install (app : BaseApp GAHook) : result Exn unit * BaseApp GAHook :=
  match middleware app "after.handler" with
  | Some fns => (Ok tt, middleware_use "after.handler" fns HTrack app)
  | None => (Ok tt, app)
  end.

Definition sample_track (hr : HandleRequest) : EM GAState Exn unit :=
  λ s, (Ok tt, add_hit (HPayload (default ∅ (visitor s))
                                 (session_data s !! "endReason")) s).

#[export] Instance SampleBase : GoogleAnalyticsBase := {
  base_install := sample_install;
  base_track := sample_track;
  base_initVisitor := λ _, em_modify (set_visitor (Some ∅));
  base_setGoogleAnalyticsObject := λ _, em_ret tt;
  base_sendUnhandledEvents := λ _, em_ret tt;
  base_hook := λ _ _, em_ret tt;
}.

#[export] Instance SampleBase_laws : GoogleAnalyticsBaseLaws.
Proof.
  split; try (intros; intros s; simpl; auto with jovo; reflexivity).
  - intros j s s' [= <-]. by eexists.
  - intros app name fns Hfns. simpl. unfold sample_install.
    destruct (middleware app "after.handler") as [l|] eqn:Hl; simpl; [|by exists []; rewrite app_nil_r].
    destruct (decide (name = "after.handler")) as [->|Hne].
    + rewrite middleware_use_same. exists [HTrack]. congruence.
    + rewrite middleware_use_other by done. exists []. by rewrite app_nil_r.
Qed.
