(* ===== verification/GoogleAnalyticsAlexa.v ===== *)
(** The adapter [GoogleAnalyticsAlexa] of
    [src/jovo-integrations/jovo-analytics-googleanalytics/src/GoogleAnalyticsAlexa.ts]:
    one definition per method ([track], [initVisitor],
    [setGoogleAnalyticsObject], [setErrorEndReason], [sendUnhandledEvents];
    [install] is in [Pipeline]), written over an arbitrary base tracker
    (the Section's [Context]), and their theorems. *)

From S2P Require Import Prelude JsValue JovoCore GoogleAnalytics.

Section GoogleAnalyticsAlexa.
Context `{GAB : GoogleAnalyticsBase}.

(** ** Definitions *)

(** [new JovoError('Jovo object is not set', ErrorCode.ERR_PLUGIN,
    'jovo-analytics-googleanalytics')] *)
Definition plugin_error : Exn :=
  EJovo (mkJovoError "Jovo object is not set" ERR_PLUGIN "jovo-analytics-googleanalytics").

(** [jovo.constructor.name !== 'AlexaSkill'], negated *)
Definition is_alexa_skill (j : Jovo) : bool :=
  bool_decide (constructor_name j = "AlexaSkill").

Definition track (handleRequest : HandleRequest) : EM GAState Exn unit :=
  match hr_jovo handleRequest with
  | None => em_throw plugin_error
  | Some jovo =>
      if negb (is_alexa_skill jovo) then em_ret tt
      else base_track handleRequest
  end.

Definition setGoogleAnalyticsObject (handleRequest : HandleRequest)
    : EM GAState Exn unit :=
  match hr_jovo handleRequest with
  | None => em_throw plugin_error
  | Some jovo =>
      if negb (is_alexa_skill jovo) then em_ret tt
      else base_setGoogleAnalyticsObject handleRequest
  end.

(** [this.visitor!.set(key, value)]: the receiver [this.visitor.set] is
    evaluated before the argument, so an undefined visitor raises its
    [TypeError] first; [value] is the outcome of evaluating the argument. *)
Definition visitor_set (key : string) (value : result Exn jsval)
    : EM GAState Exn unit :=
  λ s, match visitor s with
       | None =>
           (Throw (ETypeError "Cannot read properties of undefined (reading 'set')"), s)
       | Some v =>
           match value with
           | Throw e => (Throw e, s)
           | Ok x => (Ok tt, set_visitor (Some (<[key := x]> v)) s)
           end
       end.

(** [request.getScreenResolution!()]: calling an absent method throws. *)
Definition call_getScreenResolution (request : AlexaRequest) : result Exn jsval :=
  match getScreenResolution request with
  | None => Throw (ETypeError "request.getScreenResolution is not a function")
  | Some v => Ok v
  end.

(** [`${deviceInfo} (Linux;Android 5.1.1) ExoPlayerLib/1.5.9`] *)
Definition user_agent_suffix : string := " (Linux;Android 5.1.1) ExoPlayerLib/1.5.9".

Definition user_agent (deviceInfo : jsval) : string :=
  js_to_string deviceInfo +:+ user_agent_suffix.

(** ['request.metadata.referrer'] as [lodash.get] splits it *)
Definition referrer_path : list string := ["request"; "metadata"; "referrer"].

(** [if (referrer) { ... }]: the three campaign fields. *)
Definition set_referrer_fields (referrer : jsval) : EM GAState Exn unit :=
  if js_truthy referrer then
    visitor_set "campaignMedium" (Ok (JStr "referral")) ;;
    visitor_set "campaignSource" (Ok referrer) ;;
    visitor_set "documentReferrer" (Ok referrer)
  else em_ret tt.

(** The body of [initVisitor] after [super.initVisitor(jovo)]. *)
Definition enrichVisitor (request : AlexaRequest) : EM GAState Exn unit :=
  let deviceInfo := getDeviceName request in
  visitor_set "screenResolution" (call_getScreenResolution request) ;;
  visitor_set "userAgentOverride" (Ok (JStr (user_agent deviceInfo))) ;;
  set_referrer_fields (lodash_get (ar_object request) referrer_path).

Definition initVisitor (jovo : Jovo) : EM GAState Exn unit :=
  base_initVisitor jovo ;;
  enrichVisitor (jovo_request jovo).

(** [jovo?.$alexaSkill?.getEndReason()] *)
Definition end_reason_of (handleRequest : HandleRequest) : jsval :=
  match hr_jovo handleRequest with
  | None => JUndefined
  | Some jovo =>
      match alexaSkill jovo with
      | None => JUndefined
      | Some a => getEndReason a
      end
  end.

Definition setErrorEndReason (handleRequest : HandleRequest) : EM GAState Exn unit :=
  let endReason := end_reason_of handleRequest in
  s ← em_get ;
  if trackEndReasons (config s) && js_truthy endReason then
    setEndReason (hr_jovo handleRequest) endReason
  else em_ret tt.

(** [jovo.$alexaSkill!.getEndReason() === 'EXCEEDED_MAX_REPROMPTS']: the
    non-null assertion does not guard the call on an absent [$alexaSkill]. *)
Definition exceeded_max_reprompts (jovo : Jovo) : result Exn bool :=
  match alexaSkill jovo with
  | None => Throw (ETypeError "Cannot read properties of undefined (reading 'getEndReason')")
  | Some a => Ok (js_strict_eq_str (getEndReason a) "EXCEEDED_MAX_REPROMPTS")
  end.

Definition sendUnhandledEvents (jovo : Jovo) : EM GAState Exn unit :=
  base_sendUnhandledEvents jovo ;;
  match exceeded_max_reprompts jovo with
  | Throw e => em_throw e
  | Ok true => sendUserEvent jovo "FlowError" "Exceeded_Max_Reprompts"
  | Ok false => em_ret tt
  end.

(** ** Helper lemmas *)

(** What [enrichVisitor] does to a visitor [v] when the screen resolution
    method returns [sr]. *)
Definition alexa_fields (request : AlexaRequest) (sr : jsval) (v : Visitor) : Visitor :=
  let v1 := <["userAgentOverride" := JStr (user_agent (getDeviceName request))]>
              (<["screenResolution" := sr]> v) in
  let r := lodash_get (ar_object request) referrer_path in
  if js_truthy r then
    <["documentReferrer" := r]> (<["campaignSource" := r]>
      (<["campaignMedium" := JStr "referral"]> v1))
  else v1.

(** The keys [enrichVisitor] may write. *)
Definition alexa_keys : list string :=
  ["screenResolution"; "userAgentOverride"; "campaignMedium";
   "campaignSource"; "documentReferrer"].

Lemma call_getScreenResolution_some request sr :
  getScreenResolution request = Some sr → call_getScreenResolution request = Ok sr.
Proof. unfold call_getScreenResolution. by intros ->. Qed.

Lemma enrichVisitor_ok request sr v s :
  visitor s = Some v → getScreenResolution request = Some sr →
  enrichVisitor request s = (Ok tt, set_visitor (Some (alexa_fields request sr v)) s).
Proof.
  intros Hv Hsr. unfold enrichVisitor, set_referrer_fields, alexa_fields, em_bind.
  rewrite (call_getScreenResolution_some _ sr) by done.
  unfold visitor_set. rewrite Hv. simpl. by destruct (js_truthy _).
Qed.

Lemma alexa_fields_lookup_in request sr v :
  alexa_fields request sr v !! "screenResolution" = Some sr ∧
  alexa_fields request sr v !! "userAgentOverride" =
    Some (JStr (user_agent (getDeviceName request))).
Proof. unfold alexa_fields. by destruct (js_truthy _); simplify_map_eq. Qed.

Lemma alexa_fields_lookup_other request sr v k :
  k ∉ alexa_keys → alexa_fields request sr v !! k = v !! k.
Proof.
  intros Hk. unfold alexa_keys in Hk. rewrite !not_elem_of_cons in Hk.
  destruct_and!. unfold alexa_fields.
  destruct (js_truthy _); rewrite !lookup_insert_ne; done.
Qed.

(** ** [track] and [setGoogleAnalyticsObject] *)

(** C7: [track] on a request without a [jovo] object throws the plugin
    error ["Jovo object is not set"] ([ERR_PLUGIN], module
    ["jovo-analytics-googleanalytics"]) and changes nothing. *)
Theorem track_without_jovo (s : GAState) :
  track (mkHandleRequest None) ⇓{s} (Throw plugin_error, s).
Proof. reflexivity. Qed.

(** C1: [track] on a [jovo] object whose class is not named
    ["AlexaSkill"] returns normally without any effect. *)
Theorem track_other_platform (j : Jovo) (s : GAState) :
  constructor_name j ≠ "AlexaSkill" →
  track (mkHandleRequest (Some j)) ⇓{s} (Ok tt, s).
Proof.
  intros Hne. unfold track, is_alexa_skill. simpl.
  by rewrite bool_decide_eq_false_2.
Qed.

(** C8: [track] on an ["AlexaSkill"] object is the base tracker's [track]. *)
Theorem track_alexa (j : Jovo) (s : GAState) :
  constructor_name j = "AlexaSkill" →
  track (mkHandleRequest (Some j)) s = base_track (mkHandleRequest (Some j)) s.
Proof.
  intros Heq. unfold track, is_alexa_skill. simpl.
  by rewrite bool_decide_eq_true_2.
Qed.

(** C9: [setGoogleAnalyticsObject] has the guard of [track]: the plugin
    error without a [jovo] object, a no-op on another platform, and the
    base implementation on Alexa. *)
Theorem setGoogleAnalyticsObject_guard (s : GAState) (j : Jovo) :
  setGoogleAnalyticsObject (mkHandleRequest None) ⇓{s} (Throw plugin_error, s) ∧
  (constructor_name j ≠ "AlexaSkill" →
     setGoogleAnalyticsObject (mkHandleRequest (Some j)) ⇓{s} (Ok tt, s)) ∧
  (constructor_name j = "AlexaSkill" →
     setGoogleAnalyticsObject (mkHandleRequest (Some j)) s =
     base_setGoogleAnalyticsObject (mkHandleRequest (Some j)) s).
Proof.
  unfold setGoogleAnalyticsObject, is_alexa_skill; simpl.
  split; [done|split; intros H].
  - by rewrite bool_decide_eq_false_2.
  - by rewrite bool_decide_eq_true_2.
Qed.

(** ** [initVisitor] *)

Lemma initVisitor_ok j s s1 v0 sr :
  base_initVisitor j s = (Ok tt, s1) → visitor s1 = Some v0 →
  getScreenResolution (jovo_request j) = Some sr →
  initVisitor j s = (Ok tt, set_visitor (Some (alexa_fields (jovo_request j) sr v0)) s1).
Proof.
  intros Hb Hv Hsr. unfold initVisitor. rewrite (em_bind_ok _ _ _ tt s1) by done.
  by apply enrichVisitor_ok.
Qed.

Lemma alexa_fields_campaign request sr v :
  let r := lodash_get (ar_object request) referrer_path in
  (js_truthy r = true →
     alexa_fields request sr v !! "campaignMedium" = Some (JStr "referral") ∧
     alexa_fields request sr v !! "campaignSource" = Some r ∧
     alexa_fields request sr v !! "documentReferrer" = Some r) ∧
  (js_truthy r = false → ∀ k, k ≠ "screenResolution" → k ≠ "userAgentOverride" →
     alexa_fields request sr v !! k = v !! k).
Proof.
  cbv zeta. unfold alexa_fields. split; intros Hr; rewrite Hr; [by simplify_map_eq|].
  intros k H1 H2. by rewrite !lookup_insert_ne.
Qed.

Lemma enrichVisitor_without_visitor request s :
  visitor s = None →
  enrichVisitor request s =
    (Throw (ETypeError "Cannot read properties of undefined (reading 'set')"), s).
Proof. intros Hv. unfold enrichVisitor, em_bind, visitor_set. by rewrite Hv. Qed.

Lemma enrichVisitor_without_screen_resolution request s v :
  visitor s = Some v → getScreenResolution request = None →
  enrichVisitor request s =
    (Throw (ETypeError "request.getScreenResolution is not a function"), s).
Proof.
  intros Hv Hsr. unfold enrichVisitor, em_bind, visitor_set, call_getScreenResolution.
  by rewrite Hv, Hsr.
Qed.

Section WithLaws.
Context `{!GoogleAnalyticsBaseLaws}.

(** C5: after the base initializer returns, [initVisitor] sets
    [screenResolution] to what [getScreenResolution()] returns and
    [userAgentOverride] to the fake user agent of the device, and
    leaves every key outside the five Alexa keys as the base made it. *)
Theorem initVisitor_sets_fields (j : Jovo) (s s1 : GAState) (sr : jsval) :
  base_initVisitor j s = (Ok tt, s1) →
  getScreenResolution (jovo_request j) = Some sr →
  ∃ v0 v, visitor s1 = Some v0 ∧
    initVisitor j ⇓{s} (Ok tt, set_visitor (Some v) s1) ∧
    v !! "screenResolution" = Some sr ∧
    v !! "userAgentOverride" = Some (JStr (user_agent (getDeviceName (jovo_request j)))) ∧
    (∀ k, k ∉ alexa_keys → v !! k = v0 !! k).
Proof.
  intros Hb Hsr. destruct (base_initVisitor_visitor j s s1 Hb) as [v0 Hv0].
  exists v0, (alexa_fields (jovo_request j) sr v0).
  split; [done|split; [by apply initVisitor_ok|]].
  split; [apply alexa_fields_lookup_in|].
  split; [apply alexa_fields_lookup_in|]. apply alexa_fields_lookup_other.
Qed.

(** C10: [initVisitor] sets [campaignMedium = "referral"] and
    [campaignSource] and [documentReferrer] to the referrer when
    [request.metadata.referrer] is truthy, and leaves these keys as the
    base made them otherwise. *)
Theorem initVisitor_campaign_fields (j : Jovo) (s s1 : GAState) (sr : jsval) :
  base_initVisitor j s = (Ok tt, s1) →
  getScreenResolution (jovo_request j) = Some sr →
  let r := lodash_get (ar_object (jovo_request j)) referrer_path in
  ∃ v0 v, visitor s1 = Some v0 ∧
    initVisitor j ⇓{s} (Ok tt, set_visitor (Some v) s1) ∧
    (js_truthy r = true →
       v !! "campaignMedium" = Some (JStr "referral") ∧
       v !! "campaignSource" = Some r ∧ v !! "documentReferrer" = Some r) ∧
    (js_truthy r = false →
       ∀ k, k ≠ "screenResolution" → k ≠ "userAgentOverride" → v !! k = v0 !! k).
Proof.
  intros Hb Hsr r. destruct (base_initVisitor_visitor j s s1 Hb) as [v0 Hv0].
  exists v0, (alexa_fields (jovo_request j) sr v0).
  split; [done|split; [by apply initVisitor_ok|]].
  apply alexa_fields_campaign.
Qed.
End WithLaws.

(** C12: when the base initializer leaves [this.visitor] undefined,
    [initVisitor] throws the [TypeError] of [this.visitor!.set] and sets
    nothing. *)
Theorem initVisitor_without_visitor (j : Jovo) (s s1 : GAState) :
  base_initVisitor j s = (Ok tt, s1) → visitor s1 = None →
  initVisitor j ⇓{s}
    (Throw (ETypeError "Cannot read properties of undefined (reading 'set')"), s1).
Proof.
  intros Hb Hv. unfold initVisitor. rewrite (em_bind_ok _ _ _ tt s1) by done.
  by apply enrichVisitor_without_visitor.
Qed.

(** C13: when the request has no [getScreenResolution] method,
    [initVisitor] throws a [TypeError] before it sets any field. *)
Theorem initVisitor_without_screen_resolution (j : Jovo) (s s1 : GAState) (v0 : Visitor) :
  base_initVisitor j s = (Ok tt, s1) → visitor s1 = Some v0 →
  getScreenResolution (jovo_request j) = None →
  initVisitor j ⇓{s}
    (Throw (ETypeError "request.getScreenResolution is not a function"), s1).
Proof.
  intros Hb Hv Hsr. unfold initVisitor. rewrite (em_bind_ok _ _ _ tt s1) by done.
  by apply (enrichVisitor_without_screen_resolution _ _ v0).
Qed.

(** ** [setErrorEndReason] *)

Lemma setErrorEndReason_eq hr s :
  setErrorEndReason hr s =
  (Ok tt, if trackEndReasons (config s) && js_truthy (end_reason_of hr)
          then set_session_data (<["endReason" := end_reason_of hr]> (session_data s)) s
          else s).
Proof.
  unfold setErrorEndReason, em_bind, em_get. simpl.
  destruct (trackEndReasons (config s) && js_truthy (end_reason_of hr)) eqn:Hc; [|done].
  destruct hr as [[j|]]; [done|]. simpl in Hc. by rewrite andb_false_r in Hc.
Qed.

(** C2: [setErrorEndReason] never throws; it records the end reason on
    the session exactly when [trackEndReasons] is on and the reason is
    truthy, and changes nothing otherwise. *)
Theorem setErrorEndReason_spec (hr : HandleRequest) (s : GAState) :
  setErrorEndReason hr ⇓{s}
    (Ok tt, if trackEndReasons (config s) && js_truthy (end_reason_of hr)
            then set_session_data (<["endReason" := end_reason_of hr]> (session_data s)) s
            else s).
Proof. apply setErrorEndReason_eq. Qed.

(** ** [sendUnhandledEvents] *)

(** C6: after the base tracker's unhandled events, [sendUnhandledEvents]
    sends the one event [FlowError]/[Exceeded_Max_Reprompts] when the end
    reason is the string ["EXCEEDED_MAX_REPROMPTS"], and nothing else
    otherwise. *)
Theorem sendUnhandledEvents_flow_error (j : Jovo) (a : AlexaSkill) (s s1 : GAState) :
  base_sendUnhandledEvents j s = (Ok tt, s1) → alexaSkill j = Some a →
  (getEndReason a = JStr "EXCEEDED_MAX_REPROMPTS" →
     sendUnhandledEvents j ⇓{s}
       (Ok tt, add_hit (HEvent "FlowError" "Exceeded_Max_Reprompts") s1)) ∧
  (getEndReason a ≠ JStr "EXCEEDED_MAX_REPROMPTS" →
     sendUnhandledEvents j ⇓{s} (Ok tt, s1)).
Proof.
  intros Hb Ha. unfold sendUnhandledEvents, exceeded_max_reprompts.
  rewrite (em_bind_ok _ _ _ tt s1) by done. rewrite Ha.
  split; intros He.
  - by rewrite (proj2 (js_strict_eq_str_spec _ _) He).
  - destruct (js_strict_eq_str _ _) eqn:Hq; [|done].
    by apply js_strict_eq_str_spec in Hq.
Qed.

(** C11: without [$alexaSkill], [sendUnhandledEvents] throws the
    [TypeError] of [jovo.$alexaSkill!.getEndReason()] after the base
    tracker has sent its events. *)
Theorem sendUnhandledEvents_without_alexaSkill (j : Jovo) (s s1 : GAState) :
  base_sendUnhandledEvents j s = (Ok tt, s1) → alexaSkill j = None →
  sendUnhandledEvents j ⇓{s}
    (Throw (ETypeError "Cannot read properties of undefined (reading 'getEndReason')"), s1).
Proof.
  intros Hb Ha. unfold sendUnhandledEvents, exceeded_max_reprompts.
  rewrite (em_bind_ok _ _ _ tt s1) by done. by rewrite Ha.
Qed.

(** ** The history invariant *)

Section History.
Context `{!GoogleAnalyticsBaseLaws}.

Lemma track_le hr : em_preserves ga_le (track hr).
Proof.
  unfold track. destruct (hr_jovo hr); [destruct (negb _)|]; eauto with jovo typeclass_instances.
Qed.

Lemma setGoogleAnalyticsObject_le hr : em_preserves ga_le (setGoogleAnalyticsObject hr).
Proof.
  unfold setGoogleAnalyticsObject. destruct (hr_jovo hr); [destruct (negb _)|]; eauto with jovo typeclass_instances.
Qed.

Lemma setErrorEndReason_le hr : em_preserves ga_le (setErrorEndReason hr).
Proof.
  intros s. rewrite setErrorEndReason_eq. simpl.
  destruct (_ && _); [apply set_session_data_le|done].
Qed.

End History.

End GoogleAnalyticsAlexa.

#[export] Hint Resolve track_le setGoogleAnalyticsObject_le setErrorEndReason_le : jovo.
