(* ===== verification/VisitorRecord.v ===== *)
(** Properties of the visitor record that [initVisitor] builds: the
    sequence of [this.visitor!.set] calls of [enrichVisitor] is equivalent
    to one union with a reference table of the Alexa fields; the size of the
    record grows by at most one key per entry of the table (five, two
    without a referrer); the record stays string-valued, as the spec's
    data model says, when the screen resolution and a truthy referrer are
    strings; and the user agent of a request without a device name, or
    with an empty one. *)

From S2P Require Import Prelude JsValue JovoCore GoogleAnalytics GoogleAnalyticsAlexa.

Section VisitorRecord.
Context `{GAB : GoogleAnalyticsBase}.

(** ** Reference definition *)

(** The fields [initVisitor] adds, as a table. *)
Definition alexa_entries (request : AlexaRequest) (sr : jsval) : list (string * jsval) :=
  let r := lodash_get (ar_object request) referrer_path in
  [("screenResolution", sr);
   ("userAgentOverride", JStr (user_agent (getDeviceName request)))] ++
  (if js_truthy r
   then [("campaignMedium", JStr "referral"); ("campaignSource", r); ("documentReferrer", r)]
   else []).

(** The reference: the table overrides the visitor (left-biased union). *)
Definition enrich_reference (request : AlexaRequest) (sr : jsval) (v : Visitor) : Visitor :=
  list_to_map (alexa_entries request sr) ∪ v.

(** The record is string-valued, as the spec's data model has it. *)
Definition visitor_strings (v : Visitor) : Prop :=
  map_Forall (λ _ x, js_is_string x = true) v.

(** ** Lemmas *)

Lemma alexa_fields_reference request sr v :
  alexa_fields request sr v = enrich_reference request sr v.
Proof.
  apply map_eq. intros k. unfold alexa_fields, enrich_reference, alexa_entries.
  rewrite lookup_union.
  destruct (js_truthy _); simpl; rewrite !lookup_insert, ?lookup_empty;
    repeat case_decide; subst; try done;
    by match goal with |- context [v !! ?i] => destruct (v !! i) end.
Qed.

Lemma size_insert_bounds {A} (m : gmap string A) i x :
  size m ≤ size (<[i:=x]> m) ≤ S (size m).
Proof. rewrite map_size_insert. destruct (m !! i); simpl; lia. Qed.

(** Pose the size bounds of every insertion in the goal. *)
Ltac insert_size_bounds :=
  repeat match goal with
  | |- context [<[?i:=?x]> ?m] =>
      lazymatch goal with
      | _ : size m ≤ size (<[i:=x]> m) ≤ _ |- _ => fail
      | _ => pose proof (size_insert_bounds m i x)
      end
  end.

Lemma alexa_fields_size request sr v :
  size v ≤ size (alexa_fields request sr v) ≤ size v + length (alexa_entries request sr).
Proof.
  unfold alexa_fields, alexa_entries. destruct (js_truthy _); cbn [length app]; insert_size_bounds; lia.
Qed.

Lemma alexa_entries_length request sr :
  length (alexa_entries request sr) =
  if js_truthy (lodash_get (ar_object request) referrer_path) then 5 else 2.
Proof. unfold alexa_entries. by destruct (js_truthy _). Qed.

Lemma alexa_fields_strings request sr v :
  visitor_strings v → js_is_string sr = true →
  (js_truthy (lodash_get (ar_object request) referrer_path) = true →
     js_is_string (lodash_get (ar_object request) referrer_path) = true) →
  visitor_strings (alexa_fields request sr v).
Proof.
  intros Hv Hsr Hr. unfold alexa_fields, visitor_strings in *.
  destruct (js_truthy _) eqn:Ht;
    repeat apply map_Forall_insert_2; auto.
Qed.

(** ** Theorems *)

(** C15: [enrichVisitor], five [this.visitor!.set] calls in sequence, is
    equivalent to one left-biased union of the visitor with the table of
    Alexa fields. *)
Theorem enrichVisitor_reference (request : AlexaRequest) (s : GAState) (v : Visitor) (sr : jsval) :
  visitor s = Some v → getScreenResolution request = Some sr →
  enrichVisitor request ⇓{s} (Ok tt, set_visitor (Some (enrich_reference request sr v)) s).
Proof.
  intros Hv Hsr. rewrite <-alexa_fields_reference. by apply enrichVisitor_ok.
Qed.

Section WithLaws.
Context `{!GoogleAnalyticsBaseLaws}.

(** C16: [initVisitor] adds at most one key per entry of the table of
    Alexa fields to the visitor the base initializer made, and never removes
    one: at most five keys, and two when the referrer is falsy. *)
Theorem initVisitor_visitor_size (j : Jovo) (s s1 : GAState) (sr : jsval) :
  base_initVisitor j s = (Ok tt, s1) →
  getScreenResolution (jovo_request j) = Some sr →
  ∃ v0 v, visitor s1 = Some v0 ∧
    initVisitor j ⇓{s} (Ok tt, set_visitor (Some v) s1) ∧
    size v0 ≤ size v ≤ size v0 + length (alexa_entries (jovo_request j) sr) ∧
    length (alexa_entries (jovo_request j) sr) ≤ 5 ∧
    (js_truthy (lodash_get (ar_object (jovo_request j)) referrer_path) = false →
       length (alexa_entries (jovo_request j) sr) = 2).
Proof.
  intros Hb Hsr. destruct (base_initVisitor_visitor j s s1 Hb) as [v0 Hv0].
  exists v0, (alexa_fields (jovo_request j) sr v0).
  split; [done|split; [by apply initVisitor_ok|split; [apply alexa_fields_size|]]].
  rewrite alexa_entries_length. destruct (js_truthy _); split; intros; (lia || discriminate).
Qed.

(** C17: when the base visitor is string-valued, the screen resolution is
    a string and a truthy referrer is a string, the visitor [initVisitor]
    leaves is string-valued. *)
Theorem initVisitor_keeps_strings (j : Jovo) (s s1 : GAState) (v0 : Visitor) (sr : jsval) :
  base_initVisitor j s = (Ok tt, s1) → visitor s1 = Some v0 → visitor_strings v0 →
  getScreenResolution (jovo_request j) = Some sr → js_is_string sr = true →
  (js_truthy (lodash_get (ar_object (jovo_request j)) referrer_path) = true →
     js_is_string (lodash_get (ar_object (jovo_request j)) referrer_path) = true) →
  ∃ v, initVisitor j ⇓{s} (Ok tt, set_visitor (Some v) s1) ∧ visitor_strings v.
Proof.
  intros Hb Hv0 Hs Hsr Hsrs Hr. exists (alexa_fields (jovo_request j) sr v0).
  split; [by apply initVisitor_ok|by apply alexa_fields_strings].
Qed.
(** C22: the device name goes through a template literal unchecked: a
    request whose [getDeviceName()] is [undefined] gets the user agent
    ["undefined (Linux;Android 5.1.1) ExoPlayerLib/1.5.9"], and an empty
    device name gives a user agent that starts with the space of the
    suffix. *)
Theorem initVisitor_user_agent_boundaries (j : Jovo) (s s1 : GAState) (sr : jsval) :
  base_initVisitor j s = (Ok tt, s1) →
  getScreenResolution (jovo_request j) = Some sr →
  ∃ v, initVisitor j ⇓{s} (Ok tt, set_visitor (Some v) s1) ∧
    (getDeviceName (jovo_request j) = JUndefined →
       v !! "userAgentOverride" = Some (JStr "undefined (Linux;Android 5.1.1) ExoPlayerLib/1.5.9")) ∧
    (getDeviceName (jovo_request j) = JStr "" →
       v !! "userAgentOverride" = Some (JStr " (Linux;Android 5.1.1) ExoPlayerLib/1.5.9")).
Proof.
  intros Hb Hsr. destruct (base_initVisitor_visitor j s s1 Hb) as [v0 Hv0].
  exists (alexa_fields (jovo_request j) sr v0). split; [by apply initVisitor_ok|].
  destruct (alexa_fields_lookup_in (jovo_request j) sr v0) as [_ ->].
  split; intros Hd; by rewrite Hd.
Qed.

End WithLaws.

End VisitorRecord.
