(* ===== verification/Design.v ===== *)
(** The adapter's contract as the spec states it (sections 4.1, 6 and 8),
    as abstract relational specifications, and the theorems that the
    definitions of [GoogleAnalyticsAlexa] refine them.

    - [guarded_spec]: the contract of [track] and [setGoogleAnalyticsObject]:
      a structured plugin error without a [jovo] object, a silent no-op on
      another platform, the base operation on the target platform.  The
      spec's platform test is "an instance of the target platform's session
      type", [instance_of j "AlexaSkill"]; the code reads the class name.
      The two agree exactly when no subclass of [AlexaSkill] is in use, the
      hypothesis of the refinement. *)

From S2P Require Import Prelude JsValue JovoCore GoogleAnalytics GoogleAnalyticsAlexa.

Section Design.
Context `{GAB : GoogleAnalyticsBase}.

(** ** Abstract specifications *)

(** The spec's platform test. *)
Definition spec_is_target (j : Jovo) : bool := instance_of j "AlexaSkill".

(** A structured plugin error: the plugin's error code and name. *)
Definition plugin_error_spec (e : Exn) : Prop :=
  ∃ msg, e = EJovo (mkJovoError msg ERR_PLUGIN "jovo-analytics-googleanalytics").

Inductive guarded_spec (base_op : HandleRequest → EM GAState Exn unit)
    : HandleRequest → GAState → result Exn unit * GAState → Prop :=
| gs_missing s e :
    plugin_error_spec e → guarded_spec base_op (mkHandleRequest None) s (Throw e, s)
| gs_other j s :
    spec_is_target j = false → guarded_spec base_op (mkHandleRequest (Some j)) s (Ok tt, s)
| gs_target j s :
    spec_is_target j = true →
    guarded_spec base_op (mkHandleRequest (Some j)) s (base_op (mkHandleRequest (Some j)) s).

(** No class below [AlexaSkill] is in use: an [AlexaSkill] instance is an
    object of the class [AlexaSkill] itself. *)
Definition no_alexa_subclass (hr : HandleRequest) : Prop :=
  ∀ j, hr_jovo hr = Some j → "AlexaSkill" ∈ proto_chain j → constructor_name j = "AlexaSkill".

(** ** Lemmas *)

Lemma is_alexa_skill_spec j :
  ("AlexaSkill" ∈ proto_chain j → constructor_name j = "AlexaSkill") →
  is_alexa_skill j = spec_is_target j.
Proof.
  intros Hsub. unfold is_alexa_skill, spec_is_target, instance_of.
  apply bool_decide_ext. split; [|done].
  unfold constructor_name. destruct (proto_chain j); [done|]. intros ->. set_solver.
Qed.

Lemma plugin_error_is_spec : plugin_error_spec plugin_error.
Proof. by eexists. Qed.

(** A guarded method (the shape of [track] and [setGoogleAnalyticsObject])
    refines [guarded_spec] under [no_alexa_subclass]. *)
Lemma guard_refines (base_op : HandleRequest → EM GAState Exn unit)
    (m : HandleRequest → EM GAState Exn unit) hr s :
  (∀ s, m (mkHandleRequest None) s = (Throw plugin_error, s)) →
  (∀ j s, is_alexa_skill j = false → m (mkHandleRequest (Some j)) s = (Ok tt, s)) →
  (∀ j s, is_alexa_skill j = true →
     m (mkHandleRequest (Some j)) s = base_op (mkHandleRequest (Some j)) s) →
  no_alexa_subclass hr → guarded_spec base_op hr s (m hr s).
Proof.
  intros Hn Ho Ht Hsub. destruct hr as [[j|]]; [|rewrite Hn; constructor; apply plugin_error_is_spec].
  pose proof (is_alexa_skill_spec j (Hsub j eq_refl)) as E.
  destruct (spec_is_target j) eqn:Hs.
  - rewrite Ht by done. by constructor.
  - rewrite Ho by done. by constructor.
Qed.

(** ** Refinement theorems *)

(** C18: when no subclass of [AlexaSkill] is in use, [track] and
    [setGoogleAnalyticsObject] refine the spec's guarded contract, with the
    spec's [instanceof] platform test. *)
Theorem guards_refine_spec (hr : HandleRequest) (s : GAState) :
  no_alexa_subclass hr →
  guarded_spec base_track hr s (track hr s) ∧
  guarded_spec base_setGoogleAnalyticsObject hr s (setGoogleAnalyticsObject hr s).
Proof.
  intros Hsub. split; apply guard_refines; try done;
    intros j s' Hj; unfold track, setGoogleAnalyticsObject; cbn [hr_jovo]; by rewrite Hj.
Qed.

End Design.
