(* ===== verification/Pipeline.v ===== *)
(** [GoogleAnalyticsAlexa.install] and the middleware chain it takes part
    in: the registration of [setErrorEndReason] on ["after.handler"], the
    dispatch of a registered bound method to the adapter's override
    ([this.track.bind(this)] registered by the base [install] runs the
    adapter's [track]), and the theorems on the order of the chain. *)

From S2P Require Import Prelude JsValue JovoCore GoogleAnalytics GoogleAnalyticsAlexa.

Section Pipeline.
Context `{GAB : GoogleAnalyticsBase}.

(** [install(app)]: [app.middleware('after.handler')?.use(...)], then
    [super.install(app)]; a failure of the base [install] propagates and
    the registration done before it stays. *)
Definition install : EM (BaseApp GAHook) Exn unit :=
  em_modify (λ app,
    match middleware app "after.handler" with
    | Some fns => middleware_use "after.handler" fns HSetErrorEndReason app
    | None => app
    end) ;;
  base_install.

(** A registered bound method runs the method of the [GoogleAnalyticsAlexa]
    instance: the override when the class has one. *)
Definition run_hook (h : GAHook) (hr : HandleRequest) : EM GAState Exn unit :=
  match h with
  | HSetErrorEndReason => setErrorEndReason hr
  | HTrack => track hr
  | HSetGoogleAnalyticsObject => setGoogleAnalyticsObject hr
  | HBase n => base_hook n hr
  end.

Lemma install_eq app fns :
  middleware app "after.handler" = Some fns →
  install app = base_install (middleware_use "after.handler" fns HSetErrorEndReason app).
Proof. intros Hm. unfold install. em_simp. by rewrite Hm. Qed.

Lemma run_hook_le `{!GoogleAnalyticsBaseLaws} h hr : em_preserves ga_le (run_hook h hr).
Proof. destruct h; simpl; eauto with jovo typeclass_instances. Qed.

Lemma run_middleware_le `{!GoogleAnalyticsBaseLaws} fns hr :
  em_preserves ga_le (run_middleware run_hook fns hr).
Proof. apply run_middleware_preserves; [apply _|]. intros f _. apply run_hook_le. Qed.

Lemma run_middleware_snoc_cons fns h fns' hr s :
  run_middleware run_hook (fns ++ h :: fns') hr s =
  (run_middleware run_hook fns hr ;; run_hook h hr ;; run_middleware run_hook fns' hr) s.
Proof. rewrite run_middleware_app. apply em_bind_ext; [done|]. by intros [] s'. Qed.

(** C4: when the app has an ["after.handler"] middleware, [install]
    appends [setErrorEndReason] to it before whatever the base [install]
    adds there, and returns what the base [install] returns. *)
Theorem install_registers_before_base `{!GoogleAnalyticsBaseLaws}
    (app : BaseApp GAHook) (fns : list GAHook) :
  middleware app "after.handler" = Some fns →
  (∃ fns', middleware (install app).2 "after.handler" =
             Some (fns ++ HSetErrorEndReason :: fns')) ∧
  (install app).1 =
    (base_install (middleware_use "after.handler" fns HSetErrorEndReason app)).1.
Proof.
  intros Hfns. rewrite (install_eq _ fns) by done. split; [|done].
  destruct (base_install_extends (middleware_use "after.handler" fns HSetErrorEndReason app)
              "after.handler" (fns ++ [HSetErrorEndReason])) as [fns' Hf];
    [apply middleware_use_same|].
  exists fns'. by rewrite Hf, <-app_assoc.
Qed.

(** C14: when the app has no ["after.handler"] middleware, [install]
    registers nothing of its own: it is the base [install]. *)
Theorem install_without_after_handler (app : BaseApp GAHook) :
  middleware app "after.handler" = None →
  install app = base_install app.
Proof. intros Hm. unfold install. em_simp. by rewrite Hm. Qed.

(** C3: in the ["after.handler"] chain after [install], once the hooks
    registered before it have run, [setErrorEndReason] records the end
    reason (when [trackEndReasons] is on and the reason is truthy) before
    any hook the base [install] appended runs. *)
Theorem end_reason_recorded_before_base_hooks `{!GoogleAnalyticsBaseLaws}
    (app : BaseApp GAHook) (fns : list GAHook) (hr : HandleRequest) (s s1 : GAState) :
  middleware app "after.handler" = Some fns →
  trackEndReasons (config s) = true → js_truthy (end_reason_of hr) = true →
  run_middleware run_hook fns hr s = (Ok tt, s1) →
  ∃ fns' s2,
    middleware (install app).2 "after.handler" = Some (fns ++ HSetErrorEndReason :: fns') ∧
    session_data s2 !! "endReason" = Some (end_reason_of hr) ∧
    run_middleware run_hook (fns ++ HSetErrorEndReason :: fns') hr s =
    run_middleware run_hook fns' hr s2.
Proof.
  intros Happ Hc Hr Hrun.
  rewrite (install_eq _ fns) by done.
  destruct (base_install_extends (middleware_use "after.handler" fns HSetErrorEndReason app)
              "after.handler" (fns ++ [HSetErrorEndReason])) as [fns' Hf];
    [apply middleware_use_same|].
  pose proof (run_middleware_le fns hr s) as [Hcfg _]. rewrite Hrun in Hcfg. simpl in Hcfg.
  exists fns', (set_session_data (<["endReason" := end_reason_of hr]> (session_data s1)) s1).
  split; [by rewrite Hf, <-app_assoc|split; [simpl; apply lookup_insert_eq|]].
  rewrite run_middleware_snoc_cons, (em_bind_ok _ _ _ tt s1) by done.
  simpl. rewrite (em_bind_ok _ _ _ tt
    (set_session_data (<["endReason" := end_reason_of hr]> (session_data s1)) s1)); [done|].
  by rewrite setErrorEndReason_eq, Hcfg, Hc, Hr.
Qed.

End Pipeline.
