(* ===== verification/Lifecycle.v ===== *)
(** The handling of one request by the host framework ([jovo-core],
    modelled from the spec, section 5): the app runs the middlewares of its
    extension points in a fixed order, each chain to completion; an
    exception stops the request and bubbles to the framework.

    - [middleware_fns]: the functions registered on an extension point;
    - [handle]: the run of a list of extension points, as an executable
      function over the tracker state;
    - [handle_cons_throw]: an exception raised by the chain of one
      extension point ends the request there. *)

From S2P Require Import Prelude JsValue JovoCore GoogleAnalytics GoogleAnalyticsAlexa Pipeline.

Section Lifecycle.
Context `{GAB : GoogleAnalyticsBase}.
Variable app : BaseApp GAHook.
Variable hr : HandleRequest.

(** The functions registered on an extension point; none if the app does
    not declare it. *)
Definition middleware_fns (name : string) : list GAHook :=
  default [] (middleware app name).

Fixpoint handle (points : list string) : EM GAState Exn unit :=
  match points with
  | [] => em_ret tt
  | name :: rest => run_middleware run_hook (middleware_fns name) hr ;; handle rest
  end.

Lemma handle_cons_throw name rest s s' e :
  run_middleware run_hook (middleware_fns name) hr s = (Throw e, s') →
  handle (name :: rest) s = (Throw e, s').
Proof. intros Hrun. simpl. unfold em_bind. by rewrite Hrun. Qed.

End Lifecycle.
