(* ===== verification/EndToEnd.v ===== *)
(** One request, from the installed middleware
    chain to the hit sent to Google Analytics: the composition of
    [install], the dispatch of the registered hooks, [setErrorEndReason],
    [track], [initVisitor] and a base tracker that installs and sends as
    the spec describes it (the base [install] appends its send hook [track]
    to ["after.handler"]; the base [track] sends the visitor's parameters
    with the session's end reason).

    - [request_cycle]: one request as the spec's data model has it: the
      visitor is created and enriched ([initVisitor]), then the
      ["after.handler"] chain of the installed app runs.

    The theorems: the payload sent after [install] carries the end reason
    recorded by the adapter's hook (the ordering the spec asks of
    [install]); a request without a [jovo] object ends the chain and the
    request with the plugin error and sends nothing; the payload of a
    request carries exactly its own Alexa fields when the base creates a
    fresh visitor, whatever earlier requests left. *)

From S2P Require Import Prelude JsValue JovoCore GoogleAnalytics GoogleAnalyticsAlexa VisitorRecord Pipeline Lifecycle.

Definition request_cycle `{GoogleAnalyticsBase} (app : BaseApp GAHook) (j : Jovo)
    : EM GAState Exn unit :=
  initVisitor j ;;
  run_middleware run_hook (middleware_fns app "after.handler") (mkHandleRequest (Some j)).

Section SampleSend.
Context `{GAB : GoogleAnalyticsBase}.
(** The base installs and sends as the spec describes. *)
Hypothesis base_install_sample : ∀ app, base_install app = sample_install app.
Hypothesis base_track_sample : ∀ hr, base_track hr = sample_track hr.

(** ** Lemmas *)

Lemma installed_after_handler app fns :
  middleware app "after.handler" = Some fns →
  middleware_fns (install app).2 "after.handler" = fns ++ [HSetErrorEndReason; HTrack].
Proof.
  intros Hm. rewrite (install_eq _ fns), base_install_sample by done.
  unfold sample_install, middleware_fns. rewrite middleware_use_same. simpl.
  rewrite middleware_use_same. simpl. by rewrite <-app_assoc.
Qed.

(** The two hooks of the tracker, on a request of an ["AlexaSkill"]. *)
Lemma tracker_hooks_alexa j s s' :
  constructor_name j = "AlexaSkill" →
  setErrorEndReason (mkHandleRequest (Some j)) s = (Ok tt, s') →
  run_middleware run_hook [HSetErrorEndReason; HTrack] (mkHandleRequest (Some j)) s =
  (Ok tt, add_hit (HPayload (default ∅ (visitor s')) (session_data s' !! "endReason")) s').
Proof.
  intros Hj Hs. simpl. rewrite (em_bind_ok _ _ _ tt s') by done.
  unfold track, is_alexa_skill. simpl. rewrite bool_decide_eq_true_2 by done.
  rewrite base_track_sample. done.
Qed.

Lemma tracker_hooks_without_jovo s :
  run_middleware run_hook [HSetErrorEndReason; HTrack] (mkHandleRequest None) s =
  (Throw plugin_error, s).
Proof. simpl. unfold em_bind. rewrite setErrorEndReason_eq. by rewrite andb_false_r. Qed.

(** The base creates a fresh, empty visitor for every request. *)
Definition base_fresh_visitor : Prop :=
  ∀ j s, base_initVisitor j s = (Ok tt, set_visitor (Some ∅) s).

Lemma initVisitor_fresh j s sr :
  base_fresh_visitor → getScreenResolution (jovo_request j) = Some sr →
  initVisitor j s = (Ok tt, set_visitor (Some (enrich_reference (jovo_request j) sr ∅)) s).
Proof.
  intros Hfresh Hsr. rewrite <-alexa_fields_reference.
  by apply (initVisitor_ok _ _ (set_visitor (Some ∅) s) ∅).
Qed.

(** The installed chain of an app with no ["after.handler"] hooks of its
    own sends the current visitor once. *)
Lemma installed_chain_payload app j s v :
  middleware app "after.handler" = Some [] → constructor_name j = "AlexaSkill" →
  visitor s = Some v →
  ∃ s2, run_middleware run_hook (middleware_fns (install app).2 "after.handler")
          (mkHandleRequest (Some j)) s = (Ok tt, s2) ∧
    hits s2 = hits s ++
      [HPayload v
         (if trackEndReasons (config s) && js_truthy (end_reason_of (mkHandleRequest (Some j)))
          then Some (end_reason_of (mkHandleRequest (Some j)))
          else session_data s !! "endReason")].
Proof.
  intros Hm Hj Hv.
  rewrite (installed_after_handler _ []), app_nil_l by done.
  rewrite (tracker_hooks_alexa _ _ _ Hj (setErrorEndReason_eq _ _)).
  eexists; split; [done|]. simpl.
  by destruct (_ && _); simpl; rewrite ?lookup_insert_eq, Hv.
Qed.

(** ** Theorems *)

(** C19: after [install], on an app with an ["after.handler"] middleware
    whose own hooks return normally, the chain of an ["AlexaSkill"] request
    with [trackEndReasons] on and a truthy end reason sends exactly one hit:
    the payload of the visitor, carrying the end reason the adapter's hook
    recorded before the base tracker's send hook ran. *)
Theorem installed_chain_sends_end_reason `{!GoogleAnalyticsBaseLaws}
    (app : BaseApp GAHook) (fns : list GAHook) (j : Jovo) (s s1 : GAState) :
  middleware app "after.handler" = Some fns → constructor_name j = "AlexaSkill" →
  trackEndReasons (config s) = true →
  js_truthy (end_reason_of (mkHandleRequest (Some j))) = true →
  run_middleware run_hook fns (mkHandleRequest (Some j)) s = (Ok tt, s1) →
  ∃ s2, run_middleware run_hook (middleware_fns (install app).2 "after.handler")
          (mkHandleRequest (Some j)) s = (Ok tt, s2) ∧
    hits s2 = hits s1 ++
      [HPayload (default ∅ (visitor s1)) (Some (end_reason_of (mkHandleRequest (Some j))))].
Proof.
  intros Hm Hj Hc Hr Hrun.
  pose proof (run_middleware_le fns (mkHandleRequest (Some j)) s) as [Hcfg _].
  rewrite Hrun in Hcfg. simpl in Hcfg.
  rewrite (installed_after_handler _ fns), run_middleware_app, (em_bind_ok _ _ _ tt s1) by done.
  rewrite (tracker_hooks_alexa _ _ (set_session_data (<["endReason" := end_reason_of
             (mkHandleRequest (Some j))]> (session_data s1)) s1)); last first.
  { by rewrite setErrorEndReason_eq, Hcfg, Hc, Hr. }
  { done. }
  eexists; split; [done|]. simpl. by rewrite lookup_insert_eq.
Qed.

(** C20: after [install], a request without a [jovo] object ends the
    ["after.handler"] chain with the plugin error once the app's own hooks
    have run, and the base tracker's send hook never runs; the error
    bubbles up: the request ends there, and no later extension point runs. *)
Theorem request_without_jovo_aborts (app : BaseApp GAHook) (fns : list GAHook)
    (rest : list string) (s s1 : GAState) :
  middleware app "after.handler" = Some fns →
  run_middleware run_hook fns (mkHandleRequest None) s = (Ok tt, s1) →
  run_middleware run_hook (middleware_fns (install app).2 "after.handler")
    (mkHandleRequest None) s = (Throw plugin_error, s1) ∧
  handle (install app).2 (mkHandleRequest None) ("after.handler" :: rest) s =
    (Throw plugin_error, s1).
Proof.
  intros Hm Hrun.
  assert (Hch : run_middleware run_hook (middleware_fns (install app).2 "after.handler")
                  (mkHandleRequest None) s = (Throw plugin_error, s1)).
  { rewrite (installed_after_handler _ fns), run_middleware_app, (em_bind_ok _ _ _ tt s1)
      by done.
    apply tracker_hooks_without_jovo. }
  split; [done|]. by apply handle_cons_throw.
Qed.

(** C21: when the base creates a fresh visitor for every request, the
    payload a request sends after [install] (on an app whose
    ["after.handler"] has no hooks of its own) carries exactly that
    request's Alexa fields, whatever earlier requests left in the tracker,
    and the end reason just recorded or else the one already on the
    session. *)
Theorem request_payload_isolated (app : BaseApp GAHook) (j : Jovo) (s : GAState) (sr : jsval) :
  middleware app "after.handler" = Some [] → base_fresh_visitor →
  constructor_name j = "AlexaSkill" → getScreenResolution (jovo_request j) = Some sr →
  ∃ s2, request_cycle (install app).2 j s = (Ok tt, s2) ∧
    hits s2 = hits s ++
      [HPayload (enrich_reference (jovo_request j) sr ∅)
         (if trackEndReasons (config s) && js_truthy (end_reason_of (mkHandleRequest (Some j)))
          then Some (end_reason_of (mkHandleRequest (Some j)))
          else session_data s !! "endReason")].
Proof.
  intros Hm Hfresh Hj Hsr. unfold request_cycle.
  rewrite (em_bind_ok _ _ _ tt _ (initVisitor_fresh _ _ _ Hfresh Hsr)).
  destruct (installed_chain_payload app j
              (set_visitor (Some (enrich_reference (jovo_request j) sr ∅)) s)
              _ Hm Hj eq_refl) as (s2 & Hrun & Hh).
  exists s2. split; [exact Hrun|exact Hh].
Qed.

End SampleSend.

