(* ===== verification/Examples.v ===== *)
(** Concrete runs of the adapter on the base tracker [SampleBase]: the two
    examples of the spec, and one instance of every theorem with
    hypotheses, at inputs where the hypotheses hold (each proof applies the
    theorem and discharges its hypotheses by computation). *)

From S2P Require Import Prelude JsValue JovoCore GoogleAnalytics GoogleAnalyticsAlexa VisitorRecord Design Pipeline Lifecycle EndToEnd.

Module Examples.

(** ** Fixtures *)

Definition referrer_object : jsval :=
  JObj [("request", JObj [("metadata", JObj [("referrer", JStr "example.com")])])].

Definition echo_request (obj : jsval) : AlexaRequest :=
  mkAlexaRequest obj (JStr "Echo Dot") (Some (JStr "1024x600")).

Definition alexa_jovo (obj : jsval) (reason : jsval) : Jovo :=
  mkJovo ["AlexaSkill"; "Jovo"] (echo_request obj) (Some (mkAlexaSkill reason)).

Definition google_jovo : Jovo :=
  mkJovo ["GoogleAction"; "Jovo"] (echo_request (JObj [])) None.

Definition state0 (track_reasons : bool) : GAState :=
  mkGAState (mkGAConfig track_reasons) None ∅ [].

Definition visited : GAState := mkGAState (mkGAConfig true) (Some ∅) ∅ [].

Definition hr_of (j : Jovo) : HandleRequest := mkHandleRequest (Some j).

Definition app0 : BaseApp GAHook := mkBaseApp {[ "after.handler" := [] ]}.

(** A base tracker whose initializer forgets to create the visitor. *)
Definition ForgetfulBase : GoogleAnalyticsBase := {|
  base_install := λ app, (Ok tt, app);
  base_track := λ _, em_ret tt;
  base_initVisitor := λ _, em_ret tt;
  base_setGoogleAnalyticsObject := λ _, em_ret tt;
  base_sendUnhandledEvents := λ _, em_ret tt;
  base_hook := λ _ _, em_ret tt;
|}.

(** ** The examples of the spec *)

(** Device ["Echo Dot"], no referrer: [screenResolution] and a user agent
    ending in [ExoPlayerLib/1.5.9], no campaign field. *)
Example initVisitor_echo_dot :
  initVisitor (alexa_jovo (JObj []) JUndefined) (state0 true) =
  (Ok tt, mkGAState (mkGAConfig true)
            (Some {[ "screenResolution" := JStr "1024x600";
                     "userAgentOverride" :=
                       JStr "Echo Dot (Linux;Android 5.1.1) ExoPlayerLib/1.5.9" ]})
            ∅ []).
Proof. vm_compute. reflexivity. Qed.

(** [trackEndReasons = false], end reason ["USER_INITIATED"]: nothing is
    recorded. *)
Example setErrorEndReason_flag_off :
  setErrorEndReason (hr_of (alexa_jovo (JObj []) (JStr "USER_INITIATED"))) (state0 false) =
  (Ok tt, state0 false).
Proof. reflexivity. Qed.

(** After [install] on an app whose ["after.handler"] is empty, the chain
    records the end reason and the base's [track] sends it in the payload. *)
Example after_handler_chain_sends_end_reason :
  match middleware (install app0).2 "after.handler" with
  | Some fns =>
      (run_middleware run_hook fns (hr_of (alexa_jovo (JObj []) (JStr "ERROR")))
         visited).2.(hits)
  | None => []
  end = [HPayload ∅ (Some (JStr "ERROR"))].
Proof. vm_compute. reflexivity. Qed.

(** ** Witnesses *)

Lemma track_other_platform_witness :
  constructor_name google_jovo ≠ "AlexaSkill" ∧
  track (hr_of google_jovo) (state0 true) = (Ok tt, state0 true).
Proof. split; [done|]. apply track_other_platform. done. Defined.

Lemma track_alexa_witness :
  constructor_name (alexa_jovo (JObj []) JUndefined) = "AlexaSkill" ∧
  track (hr_of (alexa_jovo (JObj []) JUndefined)) visited =
  base_track (hr_of (alexa_jovo (JObj []) JUndefined)) visited.
Proof. split; [done|]. apply track_alexa. done. Defined.

Lemma setGoogleAnalyticsObject_guard_witness :
  constructor_name google_jovo ≠ "AlexaSkill" ∧
  setGoogleAnalyticsObject (hr_of google_jovo) visited = (Ok tt, visited).
Proof.
  split; [done|]. apply (setGoogleAnalyticsObject_guard visited google_jovo). done.
Defined.

Lemma initVisitor_sets_fields_witness :
  base_initVisitor (alexa_jovo (JObj []) JUndefined) (state0 true) = (Ok tt, visited) ∧
  ∃ v0 v, visitor visited = Some v0 ∧
    initVisitor (alexa_jovo (JObj []) JUndefined) (state0 true) =
      (Ok tt, set_visitor (Some v) visited) ∧
    v !! "screenResolution" = Some (JStr "1024x600") ∧
    v !! "userAgentOverride" = Some (JStr (user_agent (JStr "Echo Dot"))) ∧
    (∀ k, k ∉ alexa_keys → v !! k = v0 !! k).
Proof. split; [done|]. apply initVisitor_sets_fields; done. Defined.

Lemma initVisitor_campaign_fields_witness :
  base_initVisitor (alexa_jovo referrer_object JUndefined) (state0 true) = (Ok tt, visited) ∧
  ∃ v0 v, visitor visited = Some v0 ∧
    initVisitor (alexa_jovo referrer_object JUndefined) (state0 true) =
      (Ok tt, set_visitor (Some v) visited) ∧
    (js_truthy (JStr "example.com") = true →
       v !! "campaignMedium" = Some (JStr "referral") ∧
       v !! "campaignSource" = Some (JStr "example.com") ∧
       v !! "documentReferrer" = Some (JStr "example.com")) ∧
    (js_truthy (JStr "example.com") = false →
       ∀ k, k ≠ "screenResolution" → k ≠ "userAgentOverride" → v !! k = v0 !! k).
Proof.
  split; [done|].
  apply (initVisitor_campaign_fields (alexa_jovo referrer_object JUndefined) (state0 true)
           visited (JStr "1024x600")); done.
Defined.

Lemma initVisitor_without_visitor_witness :
  @initVisitor ForgetfulBase (alexa_jovo (JObj []) JUndefined) (state0 true) =
  (Throw (ETypeError "Cannot read properties of undefined (reading 'set')"), state0 true).
Proof. apply (@initVisitor_without_visitor ForgetfulBase _ _ (state0 true)); done. Defined.

Lemma initVisitor_without_screen_resolution_witness :
  initVisitor (mkJovo ["AlexaSkill"] (mkAlexaRequest (JObj []) (JStr "Echo Dot") None) None)
    (state0 true) =
  (Throw (ETypeError "request.getScreenResolution is not a function"), visited).
Proof. apply (initVisitor_without_screen_resolution _ _ _ ∅); done. Defined.

Lemma sendUnhandledEvents_flow_error_witness :
  sendUnhandledEvents (alexa_jovo (JObj []) (JStr "EXCEEDED_MAX_REPROMPTS")) visited =
  (Ok tt, add_hit (HEvent "FlowError" "Exceeded_Max_Reprompts") visited).
Proof.
  refine (proj1 (sendUnhandledEvents_flow_error
                   (alexa_jovo (JObj []) (JStr "EXCEEDED_MAX_REPROMPTS"))
                   (mkAlexaSkill (JStr "EXCEEDED_MAX_REPROMPTS")) visited visited _ _) _);
    done.
Defined.

Lemma sendUnhandledEvents_without_alexaSkill_witness :
  sendUnhandledEvents google_jovo visited =
  (Throw (ETypeError "Cannot read properties of undefined (reading 'getEndReason')"), visited).
Proof. apply sendUnhandledEvents_without_alexaSkill; done. Defined.

Lemma install_registers_before_base_witness :
  (∃ fns', middleware (install app0).2 "after.handler" = Some ([] ++ HSetErrorEndReason :: fns')) ∧
  (install app0).1 =
    (base_install (middleware_use "after.handler" [] HSetErrorEndReason app0)).1.
Proof. apply install_registers_before_base. done. Defined.

Lemma install_without_after_handler_witness :
  install (mkBaseApp ∅) = base_install (mkBaseApp ∅).
Proof. apply install_without_after_handler. done. Defined.

Lemma end_reason_recorded_before_base_hooks_witness :
  ∃ fns' s2,
    middleware (install app0).2 "after.handler" = Some ([] ++ HSetErrorEndReason :: fns') ∧
    session_data s2 !! "endReason" = Some (end_reason_of (hr_of (alexa_jovo (JObj []) (JStr "ERROR")))) ∧
    run_middleware run_hook ([] ++ HSetErrorEndReason :: fns')
      (hr_of (alexa_jovo (JObj []) (JStr "ERROR"))) visited =
    run_middleware run_hook fns' (hr_of (alexa_jovo (JObj []) (JStr "ERROR"))) s2.
Proof. apply (end_reason_recorded_before_base_hooks _ _ _ _ visited); done. Defined.

Lemma enrichVisitor_reference_witness :
  enrichVisitor (echo_request referrer_object) visited =
  (Ok tt, set_visitor (Some (enrich_reference (echo_request referrer_object)
                                (JStr "1024x600") ∅)) visited).
Proof. apply enrichVisitor_reference; done. Defined.

Lemma initVisitor_visitor_size_witness :
  ∃ v0 v, visitor visited = Some v0 ∧
    initVisitor (alexa_jovo referrer_object JUndefined) (state0 true) =
      (Ok tt, set_visitor (Some v) visited) ∧
    size v0 ≤ size v ≤ size v0 + length (alexa_entries (echo_request referrer_object)
                                                      (JStr "1024x600")) ∧
    length (alexa_entries (echo_request referrer_object) (JStr "1024x600")) ≤ 5 ∧
    (js_truthy (lodash_get referrer_object referrer_path) = false →
       length (alexa_entries (echo_request referrer_object) (JStr "1024x600")) = 2).
Proof.
  apply (initVisitor_visitor_size (alexa_jovo referrer_object JUndefined) (state0 true)
           visited (JStr "1024x600")); done.
Defined.

Lemma initVisitor_keeps_strings_witness :
  ∃ v, initVisitor (alexa_jovo referrer_object JUndefined) (state0 true) =
         (Ok tt, set_visitor (Some v) visited) ∧ visitor_strings v.
Proof.
  apply (initVisitor_keeps_strings (alexa_jovo referrer_object JUndefined) (state0 true)
           visited ∅ (JStr "1024x600")); done.
Defined.

Lemma guards_refine_spec_witness :
  guarded_spec base_track (hr_of (alexa_jovo (JObj []) JUndefined)) visited
    (track (hr_of (alexa_jovo (JObj []) JUndefined)) visited) ∧
  guarded_spec base_setGoogleAnalyticsObject (hr_of (alexa_jovo (JObj []) JUndefined)) visited
    (setGoogleAnalyticsObject (hr_of (alexa_jovo (JObj []) JUndefined)) visited).
Proof.
  apply guards_refine_spec. intros j [= <-] _. reflexivity.
Defined.

Lemma installed_chain_sends_end_reason_witness :
  ∃ s2, run_middleware run_hook (middleware_fns (install app0).2 "after.handler")
          (hr_of (alexa_jovo (JObj []) (JStr "ERROR"))) visited = (Ok tt, s2) ∧
    hits s2 = hits visited ++ [HPayload ∅ (Some (JStr "ERROR"))].
Proof.
  apply (installed_chain_sends_end_reason (GAB:=SampleBase) (λ _, eq_refl) (λ _, eq_refl) app0 []
           (alexa_jovo (JObj []) (JStr "ERROR")) visited visited); reflexivity.
Defined.

Lemma request_without_jovo_aborts_witness :
  run_middleware run_hook (middleware_fns (install app0).2 "after.handler")
    (mkHandleRequest None) visited = (Throw plugin_error, visited) ∧
  handle (install app0).2 (mkHandleRequest None) ["after.handler"; "response"] visited =
    (Throw plugin_error, visited).
Proof.
  apply (request_without_jovo_aborts (GAB:=SampleBase) (λ _, eq_refl) app0 [] ["response"]); reflexivity.
Defined.

Lemma request_payload_isolated_witness :
  ∃ s2, request_cycle (install app0).2 (alexa_jovo referrer_object (JStr "ERROR"))
          (mkGAState (mkGAConfig true) (Some {[ "campaignSource" := JStr "old.example" ]}) ∅ [])
        = (Ok tt, s2) ∧
    hits s2 = [HPayload (enrich_reference (echo_request referrer_object) (JStr "1024x600") ∅)
                 (Some (JStr "ERROR"))].
Proof.
  exact (request_payload_isolated (GAB:=SampleBase) (λ _, eq_refl) (λ _, eq_refl) app0
           (alexa_jovo referrer_object (JStr "ERROR"))
           (mkGAState (mkGAConfig true) (Some {[ "campaignSource" := JStr "old.example" ]}) ∅ [])
           (JStr "1024x600") eq_refl (λ _ _, eq_refl) eq_refl eq_refl).
Defined.

(** A request whose device name is missing. *)
Definition nameless_jovo : Jovo :=
  mkJovo ["AlexaSkill"; "Jovo"] (mkAlexaRequest (JObj []) JUndefined (Some (JStr "1024x600")))
    None.

Lemma initVisitor_user_agent_boundaries_witness :
  ∃ v, initVisitor nameless_jovo (state0 true) = (Ok tt, set_visitor (Some v) visited) ∧
    (getDeviceName (jovo_request nameless_jovo) = JUndefined →
       v !! "userAgentOverride" = Some (JStr "undefined (Linux;Android 5.1.1) ExoPlayerLib/1.5.9")) ∧
    (getDeviceName (jovo_request nameless_jovo) = JStr "" →
       v !! "userAgentOverride" = Some (JStr " (Linux;Android 5.1.1) ExoPlayerLib/1.5.9")).
Proof.
  exact (initVisitor_user_agent_boundaries nameless_jovo (state0 true) visited (JStr "1024x600")
           eq_refl eq_refl).
Defined.

End Examples.
